(** * Loki query builder options: the options panel and its collapsed summary

    Shallow embedding of
    [public/app/plugins/datasource/loki/querybuilder/components/LokiQueryBuilderOptions.tsx].

    The file has two parts: the field-edit handlers of the React component
    [LokiQueryBuilderOptions], which call the [onChange] / [onRunQuery]
    callbacks handed down by the parent, and the pure helper
    [getCollapsedInfo], which turns the current options into the list of
    strings shown when the option group is collapsed. *)

From Stdlib Require Import ZArith List String Ascii Bool DecimalString.
Import ListNotations.

Local Open Scope string_scope.
Local Open Scope Z_scope.
Local Open Scope list_scope.

(** ** The fragment of JavaScript the file relies on *)

Module JS.

(** A value of TypeScript type [A | undefined] (an optional property [a?: A]).
    [null] is kept as well: the type checker rejects it, but [??] and the
    truthiness tests of the source are defined on it at run time. *)
Inductive maybe (A : Type) : Type :=
| undefined
| null
| val (a : A).
Arguments undefined {A}.
Arguments null {A}.
Arguments val {A} a.

(** [x ?? d] *)
Definition coalesce {A : Type} (x : maybe A) (d : A) : A :=
  match x with
  | val a => a
  | undefined | null => d
  end.

(** [x == null]: the values for which [??] takes its right-hand side *)
Definition is_nullish {A : Type} (x : maybe A) : bool :=
  match x with
  | val _ => false
  | undefined | null => true
  end.

(** ToBoolean, the coercion behind [if (x)] and [x ? a : b]. *)
Class ToBoolean (A : Type) := truthy : A -> bool.

#[export] Instance ToBoolean_bool : ToBoolean bool := fun b => b.
#[export] Instance ToBoolean_string : ToBoolean string :=
  fun s => match s with EmptyString => false | String _ _ => true end.
(** Numbers are the integers: [0] is the only falsy one. *)
#[export] Instance ToBoolean_number : ToBoolean Z := fun n => negb (n =? 0).
#[export] Instance ToBoolean_maybe {A : Type} `{ToBoolean A} : ToBoolean (maybe A) :=
  fun x => match x with
           | val a => truthy a
           | undefined | null => false
           end.

(** ToString, the coercion behind a template literal's [${x}]. *)
Class ToString (A : Type) := toString : A -> string.

#[export] Instance ToString_string : ToString string := fun s => s.
(** An integral number prints in decimal, with a leading [-] when negative. *)
#[export] Instance ToString_number : ToString Z :=
  fun n => NilEmpty.string_of_int (Z.to_int n).
#[export] Instance ToString_maybe {A : Type} `{ToString A} : ToString (maybe A) :=
  fun x => match x with
           | val a => toString a
           | undefined => "undefined"%string
           | null => "null"%string
           end.

(** [x === y] on primitive values. *)
Class StrictEq (A : Type) := strictEq : A -> A -> bool.

#[export] Instance StrictEq_number : StrictEq Z := Z.eqb.
#[export] Instance StrictEq_string : StrictEq string := String.eqb.
#[export] Instance StrictEq_maybe {A : Type} `{StrictEq A} : StrictEq (maybe A) :=
  fun x y => match x, y with
             | undefined, undefined => true
             | null, null => true
             | val a, val b => strictEq a b
             | _, _ => false
             end.

(** [o?.f] on the result of [Array.prototype.find], which is [undefined]
    when no element matches. *)
Definition optChain {A B : Type} (o : option A) (f : A -> maybe B) : maybe B :=
  match o with
  | Some a => f a
  | None => undefined
  end.

(** [items.push(x)] on a local array, as the new contents. *)
Definition push {A : Type} (items : list A) (x : A) : list A := items ++ [x].

End JS.

Import JS.

Notation "x ?? d" := (coalesce x d) (at level 45, left associativity).
Notation "x === y" := (strictEq x y) (at level 70, no associativity).
Notation "x !== y" := (negb (strictEq x y)) (at level 70, no associativity).

(** ** Types imported by the file *)

(** [CoreApp] of [@grafana/data]: a string enum naming the hosting app. *)
Definition CoreApp : Type := string.

(** [SelectableValue<T>] of [@grafana/data], with the two properties the
    file reads; both are optional. *)
Module SelectableValue.
Record t (T : Type) : Type := mk {
  value : maybe T;
  label : maybe string
}.
Arguments mk {T} value label.
Arguments value {T} _.
Arguments label {T} _.
End SelectableValue.
Abbreviation SelectableValue := SelectableValue.t.

(** [LokiQueryType] of [../../types]: the members the file names. *)
Inductive LokiQueryType : Type :=
| Range
| Instant.

#[export] Instance StrictEq_LokiQueryType : StrictEq LokiQueryType :=
  fun a b => match a, b with
             | Range, Range => true
             | Instant, Instant => true
             | _, _ => false
             end.

(** [LokiQuery] of [../../types]: the properties the file reads or
    replaces, each optional except [expr]; [rest] stands for every other own
    property of the object (those inherited from [DataQuery]), which the
    file only ever copies. *)
Module Query.
Record t (Rest : Type) : Type := mk {
  expr : string;
  queryType : maybe LokiQueryType;
  instant : maybe bool;
  legendFormat : maybe string;
  maxLines : maybe Z;
  step : maybe string;
  resolution : maybe Z;
  splitDuration : maybe string;
  rest : Rest
}.
Arguments mk {Rest}.
Arguments expr {Rest} _.
Arguments queryType {Rest} _.
Arguments instant {Rest} _.
Arguments legendFormat {Rest} _.
Arguments maxLines {Rest} _.
Arguments step {Rest} _.
Arguments resolution {Rest} _.
Arguments splitDuration {Rest} _.
Arguments rest {Rest} _.

(** The object spreads of the handlers, [{ ...query, field: v }]: a fresh
    object with every own property of [query] copied and one replaced. *)
Section Spread.
Context {Rest : Type}.
Implicit Type query : t Rest.

Definition with_queryType query (v : maybe LokiQueryType) : t Rest :=
  mk (expr query) v (instant query) (legendFormat query) (maxLines query)
     (step query) (resolution query) (splitDuration query) (rest query).

Definition with_legendFormat query (v : maybe string) : t Rest :=
  mk (expr query) (queryType query) (instant query) v (maxLines query)
     (step query) (resolution query) (splitDuration query) (rest query).

Definition with_maxLines query (v : maybe Z) : t Rest :=
  mk (expr query) (queryType query) (instant query) (legendFormat query) v
     (step query) (resolution query) (splitDuration query) (rest query).

Definition with_step query (v : maybe string) : t Rest :=
  mk (expr query) (queryType query) (instant query) (legendFormat query)
     (maxLines query) v (resolution query) (splitDuration query) (rest query).

Definition with_resolution query (v : maybe Z) : t Rest :=
  mk (expr query) (queryType query) (instant query) (legendFormat query)
     (maxLines query) (step query) v (splitDuration query) (rest query).

Definition with_splitDuration query (v : maybe string) : t Rest :=
  mk (expr query) (queryType query) (instant query) (legendFormat query)
     (maxLines query) (step query) (resolution query) v (rest query).
End Spread.
End Query.
Abbreviation LokiQuery := Query.t.

(** The event handed to an input's [onCommitChange]: only
    [evt.currentTarget.value] is read. *)
Module Event.
Record t : Type := mk { currentTarget_value : string }.
End Event.

(** ** What the file imports and does not define

    The values and functions the component takes from other modules. The
    development is parametric in them. *)
Class Imports : Type := {
  (** [isValidDuration] of [@grafana/data] *)
  isValidDuration : string -> bool;
  (** [trim] of [lodash] *)
  trim : string -> string;
  (** [preprocessMaxLines] of [../../components/LokiOptionFields]:
      a number or [undefined] *)
  preprocessMaxLines : string -> maybe Z;
  (** [queryTypeOptions] of [../../components/LokiOptionFields] *)
  queryTypeOptions : list (SelectableValue LokiQueryType);
  (** [RESOLUTION_OPTIONS] of [../../components/LokiOptionFields] *)
  RESOLUTION_OPTIONS : list (SelectableValue Z);
  (** [isLogsQuery] of [../../queryUtils] *)
  isLogsQuery : string -> bool
}.

(** ** The summary deriver *)

Section Summary.
Context {Rest : Type} {imports : Imports}.

(** [getCollapsedInfo], lines 156-187. The array [items] is local to the
    call; each [push] is a rebinding of it. *)
Definition getCollapsedInfo (query : LokiQuery Rest) (queryType : LokiQueryType)
           (maxLines : Z) (isLogQuery : bool) : list string :=
  let queryTypeLabel :=
    find (fun x => SelectableValue.value x === val queryType) queryTypeOptions in
  let resolutionLabel :=
    find (fun x => SelectableValue.value x === val (Query.resolution query ?? 1))
         RESOLUTION_OPTIONS in

  let items : list string := [] in

  let items :=
    if truthy (Query.legendFormat query)
    then push items ("Legend: " ++ toString (Query.legendFormat query))%string
    else items in

  let items :=
    if truthy (Query.resolution query)
    then push items
           ("Resolution: " ++ toString (optChain resolutionLabel SelectableValue.label))%string
    else items in

  let items :=
    push items ("Type: " ++ toString (optChain queryTypeLabel SelectableValue.label))%string in

  let items :=
    if isLogQuery
    then push items ("Line limit: " ++ toString (Query.maxLines query ?? maxLines))%string
    else items in

  let items :=
    if negb isLogQuery
    then
      let items :=
        if truthy (Query.step query)
        then push items ("Step: " ++ toString (Query.step query))%string
        else items in
      let items :=
        if truthy (Query.resolution query)
        then push items
               ("Resolution: " ++ toString (optChain resolutionLabel SelectableValue.label))%string
        else items in
      items
    else items in

  items.

End Summary.

(** ** The options panel *)

Module LokiQueryBuilderOptions.
Section Component.
Context {Rest : Type} {imports : Imports}.

(** A call the component makes to a collaborator it was handed or
    imported: [reportInteraction(name, { app, resolution })],
    [onChange(update)] and [onRunQuery()]. *)
Inductive Call : Type :=
| ReportInteraction (interactionName : string) (app : maybe CoreApp) (resolution : maybe Z)
| OnChange (update : LokiQuery Rest)
| OnRunQuery.

(** What a handler can read and write: the object behind the [query]
    prop and the [useState] cell [splitDurationValid]. *)
Record World : Type := mkWorld {
  query : LokiQuery Rest;
  splitDurationValid : bool
}.

(** Line 25: the panel mounts with [useState(true)]. *)
Definition mount (query : LokiQuery Rest) : World := mkWorld query true.

(** A handler body: from the world it starts in, a result, the world it
    leaves and the calls it made, in the order it made them. *)
Definition Action (A : Type) : Type := World -> A * World * list Call.

Definition ret {A : Type} (a : A) : Action A := fun w => (a, w, []).

Definition bind {A B : Type} (m : Action A) (k : A -> Action B) : Action B :=
  fun w =>
    let '(a, w1, calls1) := m w in
    let '(b, w2, calls2) := k a w1 in
    (b, w2, calls1 ++ calls2).

Definition call (c : Call) : Action unit := fun w => (tt, w, [c]).

(** Reading the [query] prop. *)
Definition getQuery : Action (LokiQuery Rest) := fun w => (query w, w, []).

Definition setSplitDurationValid (b : bool) : Action unit :=
  fun w => (tt, mkWorld (query w) b, []).

Definition reportInteraction (interactionName : string) (app : maybe CoreApp)
           (resolution : maybe Z) : Action unit :=
  call (ReportInteraction interactionName app resolution).

Definition onChange (update : LokiQuery Rest) : Action unit := call (OnChange update).

Definition onRunQuery : Action unit := call OnRunQuery.

(** The world a handler leaves behind, and the calls it made. *)
Definition world_after (m : Action unit) (w : World) : World := snd (fst (m w)).
Definition calls_of (m : Action unit) (w : World) : list Call := snd (m w).

Notation "x <- m ;; k" := (bind m (fun x => k))
  (at level 61, m at next level, right associativity).
Notation "m ;; k" := (bind m (fun _ => k))
  (at level 61, right associativity).

(** Lines 27-30. *)
Definition onQueryTypeChange (value : LokiQueryType) : Action unit :=
  query <- getQuery ;;
  onChange (Query.with_queryType query (val value)) ;;
  onRunQuery.

(** Lines 32-39. *)
Definition onResolutionChange (app : maybe CoreApp) (option : SelectableValue Z)
  : Action unit :=
  reportInteraction "grafana_loki_resolution_clicked" app (SelectableValue.value option) ;;
  query <- getQuery ;;
  onChange (Query.with_resolution query (SelectableValue.value option)) ;;
  onRunQuery.

(** Lines 41-50; the early [return] is the first branch. *)
Definition onChunkRangeChange (evt : Event.t) : Action unit :=
  let value := Event.currentTarget_value evt in
  if negb (isValidDuration value)
  then setSplitDurationValid false
  else
    setSplitDurationValid true ;;
    query <- getQuery ;;
    onChange (Query.with_splitDuration query (val value)) ;;
    onRunQuery.

(** Lines 52-55. *)
Definition onLegendFormatChanged (evt : Event.t) : Action unit :=
  query <- getQuery ;;
  onChange (Query.with_legendFormat query (val (Event.currentTarget_value evt))) ;;
  onRunQuery.

(** Lines 57-63. *)
Definition onMaxLinesChange (e : Event.t) : Action unit :=
  let newMaxLines := preprocessMaxLines (Event.currentTarget_value e) in
  query <- getQuery ;;
  if Query.maxLines query !== newMaxLines
  then
    onChange (Query.with_maxLines query newMaxLines) ;;
    onRunQuery
  else ret tt.

(** Lines 65-68. *)
Definition onStepChange (e : Event.t) : Action unit :=
  query <- getQuery ;;
  onChange (Query.with_step query (val (trim (Event.currentTarget_value e)))) ;;
  onRunQuery.

(** Line 70. *)
Definition queryType (query : LokiQuery Rest) : LokiQueryType :=
  Query.queryType query ?? (if truthy (Query.instant query) then Instant else Range).

(** Line 71. *)
Definition isLogQuery (query : LokiQuery Rest) : bool :=
  isLogsQuery (Query.expr query).

(** Line 77: the [collapsedInfo] prop handed to the option group. *)
Definition collapsedInfo (query : LokiQuery Rest) (maxLines : Z) : list string :=
  getCollapsedInfo query (queryType query) maxLines (isLogQuery query).

(** The editable fields of the panel, and what committing an edit in
    each one hands to its handler (the [onChange] / [onCommitChange]
    bindings of lines 80-149). *)
Inductive Field : Type :=
| Legend
| Type_
| LineLimit
| Step
| Resolution
| SplitDuration.

Inductive Commit : Type :=
| CommitLegend (evt : Event.t)
| CommitType (value : LokiQueryType)
| CommitLineLimit (e : Event.t)
| CommitStep (e : Event.t)
| CommitResolution (option : SelectableValue Z)
| CommitSplitDuration (evt : Event.t).

Definition field (c : Commit) : Field :=
  match c with
  | CommitLegend _ => Legend
  | CommitType _ => Type_
  | CommitLineLimit _ => LineLimit
  | CommitStep _ => Step
  | CommitResolution _ => Resolution
  | CommitSplitDuration _ => SplitDuration
  end.

Definition handle (app : maybe CoreApp) (c : Commit) : Action unit :=
  match c with
  | CommitLegend evt => onLegendFormatChanged evt
  | CommitType value => onQueryTypeChange value
  | CommitLineLimit e => onMaxLinesChange e
  | CommitStep e => onStepChange e
  | CommitResolution option => onResolutionChange app option
  | CommitSplitDuration evt => onChunkRangeChange evt
  end.

End Component.
End LokiQueryBuilderOptions.

Import LokiQueryBuilderOptions.

(** ** Vocabulary of the properties *)

Section Vocabulary.
Context {Rest : Type}.

(** An optional entry of the summary: present when its guard holds. *)
Definition entry_when (guard : bool) (entry : string) : list string :=
  if guard then [entry] else [].

(** The entries of a summary that come before its query-type entry. *)
Fixpoint before_type_entry (items : list string) : list string :=
  match items with
  | [] => []
  | item :: items' =>
      if prefix "Type: " item then [] else item :: before_type_entry items'
  end.

(** Whether a summary shows a resolution entry ahead of its query-type
    entry. *)
Definition has_generic_resolution_entry (items : list string) : bool :=
  existsb (prefix "Resolution: ") (before_type_entry items).

(** [update] carries the same value as [q] in every property, except
    possibly the one behind field [f]. *)
Definition agrees_except (f : Field) (q update : LokiQuery Rest) : Prop :=
  Query.expr update = Query.expr q /\
  Query.instant update = Query.instant q /\
  Query.rest update = Query.rest q /\
  (f <> Type_ -> Query.queryType update = Query.queryType q) /\
  (f <> Legend -> Query.legendFormat update = Query.legendFormat q) /\
  (f <> LineLimit -> Query.maxLines update = Query.maxLines q) /\
  (f <> Step -> Query.step update = Query.step q) /\
  (f <> Resolution -> Query.resolution update = Query.resolution q) /\
  (f <> SplitDuration -> Query.splitDuration update = Query.splitDuration q).

(** The calls of an edit that went through: the update callback with
    some new query, then the run-query callback, with nothing before them
    but telemetry. *)
Definition is_telemetry (c : @Call Rest) : bool :=
  match c with
  | ReportInteraction _ _ _ => true
  | OnChange _ | OnRunQuery => false
  end.

Definition propagated (made : list (@Call Rest)) : Prop :=
  exists (telemetry : list Call) (update : LokiQuery Rest),
    made = telemetry ++ [OnChange update; OnRunQuery] /\
    forallb is_telemetry telemetry = true.

(** The two catalog lookups of [getCollapsedInfo] (lines 157-158), as the
    text their [?.label] contributes to an entry. *)
Definition queryTypeLabelText {imports : Imports} (t : LokiQueryType) : string :=
  toString (optChain (find (fun x => SelectableValue.value x === val t) queryTypeOptions)
                     SelectableValue.label).

Definition resolutionLabelText {imports : Imports} (q : LokiQuery Rest) : string :=
  toString (optChain (find (fun x => SelectableValue.value x === val (Query.resolution q ?? 1))
                           RESOLUTION_OPTIONS)
                     SelectableValue.label).

End Vocabulary.

(** ** Stand-ins for the imports

    Simple instances of [Imports] on which the definitions can be run.
    The option catalogs list a few choices in the shape the panel expects;
    the functions are small approximations of the imported ones. *)

Module Samples.

Definition isDigit (c : ascii) : bool :=
  ((48 <=? nat_of_ascii c) && (nat_of_ascii c <=? 57))%nat.

Definition isUnit (c : ascii) : bool :=
  existsb (Ascii.eqb c) ["s"; "m"; "h"; "d"; "w"; "M"; "y"]%char.

(** Digits followed by one unit letter. *)
Fixpoint digitsThenUnit (seenDigit : bool) (s : string) : bool :=
  match s with
  | EmptyString => false
  | String c EmptyString => seenDigit && isUnit c
  | String c s' => isDigit c && digitsThenUnit true s'
  end.

Fixpoint parseDigits (acc : Z) (s : string) : maybe Z :=
  match s with
  | EmptyString => val acc
  | String c s' =>
      if isDigit c
      then parseDigits (10 * acc + (Z.of_nat (nat_of_ascii c) - 48)) s'
      else undefined
  end.

(** A non-negative decimal numeral, or [undefined]. *)
Definition parseMaxLines (s : string) : maybe Z :=
  match s with
  | EmptyString => undefined
  | String _ _ => parseDigits 0 s
  end.

Fixpoint trimStart (s : string) : string :=
  match s with
  | String " " s' => trimStart s'
  | _ => s
  end.

Fixpoint trimEnd (s : string) : string :=
  match s with
  | EmptyString => EmptyString
  | String c s' =>
      match c, trimEnd s' with
      | " "%char, EmptyString => EmptyString
      | _, t => String c t
      end
  end.

Definition imports : Imports := {|
  isValidDuration := digitsThenUnit false;
  trim := fun s => trimEnd (trimStart s);
  preprocessMaxLines := parseMaxLines;
  queryTypeOptions :=
    [ SelectableValue.mk (val Range) (val "Range"%string);
      SelectableValue.mk (val Instant) (val "Instant"%string) ];
  RESOLUTION_OPTIONS :=
    [ SelectableValue.mk (val 1) (val "1/1"%string);
      SelectableValue.mk (val 2) (val "1/2"%string);
      SelectableValue.mk (val 3) (val "1/3"%string);
      SelectableValue.mk (val 4) (val "1/4"%string);
      SelectableValue.mk (val 5) (val "1/5"%string);
      SelectableValue.mk (val 10) (val "1/10"%string) ];
  isLogsQuery := prefix "{"
|}.

(** A query with nothing but its expression set. *)
Definition bare (expr : string) : LokiQuery unit :=
  Query.mk expr undefined undefined undefined undefined undefined undefined undefined tt.

Definition logs : LokiQuery unit := bare "{job=`app`}".
Definition metric : LokiQuery unit := bare "rate({job=`app`}[5m])".

End Samples.

(** ** What the panel renders

    The element tree returned by the component (lines 73-152), as the data
    it carries: the option group with its title, collapsed summary and
    statistics, and inside it the editor fields that are shown, each with
    its label, its control and the field whose handler it is bound to.
    Layout-only props ([className], [minWidth], [min], [tooltip],
    [aria-label], [isSearchable]) are left out. *)

Module Rendered.

(** [config.featureToggles] of [@grafana/runtime]: the two toggles read on
    line 135, each an optional boolean. *)
Record FeatureToggles : Type := mkToggles {
  lokiQuerySplittingConfig : maybe bool;
  lokiQuerySplitting : maybe bool
}.

Inductive Control : Type :=
| AutoSizeInput (placeholder : maybe string) (type : string)
                (defaultValue : maybe string) (invalid : maybe bool)
| RadioButtonGroup (options : list (SelectableValue LokiQueryType)) (value : LokiQueryType)
| Select (options : list (SelectableValue Z)) (value : Z).

Record EditorField : Type := mkField {
  label : string;
  control : Control;
  edits : Field
}.

Record QueryOptionGroup (Stats : Type) : Type := mkGroup {
  title : string;
  collapsedInfo : list string;
  queryStats : maybe Stats;
  children : list EditorField
}.
Arguments mkGroup {Stats}.
Arguments title {Stats} _.
Arguments collapsedInfo {Stats} _.
Arguments queryStats {Stats} _.
Arguments children {Stats} _.

(** [x || d] on an optional number. *)
Definition orElse (x : maybe Z) (d : Z) : Z :=
  match x with
  | val a => if truthy a then a else d
  | undefined | null => d
  end.

(** [x?.toString()] *)
Definition optToString {A : Type} `{ToString A} (x : maybe A) : maybe string :=
  match x with
  | val a => val (toString a)
  | undefined | null => undefined
  end.

(** [cond && <element>] among the children: the element when [cond] is
    truthy, nothing otherwise. *)
Definition shown_when {A : Type} (cond : bool) (elements : list A) : list A :=
  if cond then elements else [].

Section Render.
Context {Rest Stats : Type} {imports : Imports}.

(** Lines 73-152, with the props and the state cell the element tree is
    computed from. *)
Definition render (toggles : FeatureToggles) (query : LokiQuery Rest) (maxLines : Z)
           (queryStats : maybe Stats) (splitDurationValid : bool)
  : QueryOptionGroup Stats :=
  let queryType := LokiQueryBuilderOptions.queryType query in
  let isLogQuery := LokiQueryBuilderOptions.isLogQuery query in
  mkGroup
    "Options"
    (getCollapsedInfo query queryType maxLines isLogQuery)
    queryStats
    ([ mkField "Legend"
               (AutoSizeInput (val "{{label}}") "string" (Query.legendFormat query) undefined)
               Legend;
       mkField "Type" (RadioButtonGroup queryTypeOptions queryType) Type_ ]
     ++ shown_when isLogQuery
          [ mkField "Line limit"
                    (AutoSizeInput (val (toString maxLines)) "number"
                                   (val (optToString (Query.maxLines query) ?? EmptyString))
                                   undefined)
                    LineLimit ]
     ++ shown_when (negb isLogQuery)
          [ mkField "Step"
                    (AutoSizeInput (val "auto") "string"
                                   (val (Query.step query ?? EmptyString)) undefined)
                    Step;
            mkField "Resolution"
                    (Select RESOLUTION_OPTIONS (orElse (Query.resolution query) 1))
                    Resolution ]
     ++ shown_when (truthy (lokiQuerySplittingConfig toggles)
                    && truthy (lokiQuerySplitting toggles))
          [ mkField "Split Duration"
                    (AutoSizeInput undefined "string"
                                   (val (Query.splitDuration query ?? "1d"))
                                   (val (negb splitDurationValid)))
                    SplitDuration ]).

(** The panel as rendered in a given world. *)
Definition renderIn (toggles : FeatureToggles) (maxLines : Z) (queryStats : maybe Stats)
           (w : @World Rest) : QueryOptionGroup Stats :=
  render toggles (LokiQueryBuilderOptions.query w) maxLines queryStats
         (LokiQueryBuilderOptions.splitDurationValid w).

End Render.

(** The rendered field bound to a given handler, if it is shown. *)
Definition fieldFor {Stats : Type} (f : Field) (view : QueryOptionGroup Stats)
  : option EditorField :=
  find (fun field => match edits field, f with
                     | Legend, Legend | Type_, Type_ | LineLimit, LineLimit
                     | Step, Step | Resolution, Resolution
                     | SplitDuration, SplitDuration => true
                     | _, _ => false
                     end)
       (children view).

End Rendered.

(** ** One edit cycle

    The panel is controlled by its parent: the handlers only hand updates
    over. The definitions below follow an edit to the next render when the
    parent adopts every update it is handed. *)

Section EditCycle.
Context {Rest : Type} {imports : Imports}.

(** The queries handed to the update callback, in order. *)
Definition handed (made : list (@Call Rest)) : list (LokiQuery Rest) :=
  flat_map (fun c => match c with
                     | OnChange update => [update]
                     | ReportInteraction _ _ _ | OnRunQuery => []
                     end) made.

(** The query the parent holds after adopting the updates in [made]. *)
Definition query_after (q : LokiQuery Rest) (made : list (@Call Rest)) : LokiQuery Rest :=
  last (handed made) q.

(** The world of the next render: the adopted query as the prop, the state
    cell as the handler left it. *)
Definition commit (app : maybe CoreApp) (c : Commit) (w : @World Rest) : @World Rest :=
  mkWorld (query_after (query w) (calls_of (handle app c) w))
          (splitDurationValid (world_after (handle app c) w)).

End EditCycle.

(** More stand-ins: imports whose catalogs are empty, and feature toggles
    with query splitting switched on. *)
Module MoreSamples.

Definition no_catalogs : Imports := {|
  isValidDuration := isValidDuration (Imports := Samples.imports);
  trim := trim (Imports := Samples.imports);
  preprocessMaxLines := preprocessMaxLines (Imports := Samples.imports);
  queryTypeOptions := [];
  RESOLUTION_OPTIONS := [];
  isLogsQuery := isLogsQuery (Imports := Samples.imports)
|}.

Definition splitting_on : Rendered.FeatureToggles :=
  Rendered.mkToggles (val true) (val true).

(** A query with a second shape of extra properties. *)
Definition logs_with_refId : LokiQuery string :=
  Query.mk "{job=`app`}" (val Instant) (val true) undefined undefined (val "1m")
           undefined (val "2d") "A".

End MoreSamples.

(** ** Properties of the summary deriver *)

Section SummaryProperties.
Context {Rest : Type} {imports : Imports}.
Implicit Types (q : LokiQuery Rest) (t : LokiQueryType) (fallback : Z) (isLog : bool).

Lemma truthy_text (x : maybe string) :
  truthy x = true <-> exists s, x = val s /\ s <> EmptyString.
Proof.
  split.
  - destruct x as [| |s]; try discriminate.
    destruct s; try discriminate.
    intros _. eexists. split; [reflexivity|discriminate].
  - intros [s [-> Hs]]. destruct s; [contradiction|reflexivity].
Qed.

Lemma truthy_number (x : maybe Z) :
  truthy x = true <-> exists n, x = val n /\ n <> 0.
Proof.
  split.
  - destruct x as [| |n]; try discriminate.
    unfold truthy, ToBoolean_maybe, truthy, ToBoolean_number.
    intros H. exists n. split; [reflexivity|].
    apply negb_true_iff, Z.eqb_neq in H. exact H.
  - intros [n [-> Hn]].
    unfold truthy, ToBoolean_maybe, truthy, ToBoolean_number.
    apply negb_true_iff, Z.eqb_neq. exact Hn.
Qed.

(** The pushes of [getCollapsedInfo], read off as one concatenation. *)
Lemma getCollapsedInfo_items q t fallback isLog :
  getCollapsedInfo q t fallback isLog =
    entry_when (truthy (Query.legendFormat q))
               ("Legend: " ++ toString (Query.legendFormat q))%string
    ++ entry_when (truthy (Query.resolution q)) ("Resolution: " ++ resolutionLabelText q)%string
    ++ [("Type: " ++ queryTypeLabelText t)%string]
    ++ (if isLog
        then [("Line limit: " ++ toString (Query.maxLines q ?? fallback))%string]
        else entry_when (truthy (Query.step q)) ("Step: " ++ toString (Query.step q))%string
             ++ entry_when (truthy (Query.resolution q))
                           ("Resolution: " ++ resolutionLabelText q)%string).
Proof.
  unfold getCollapsedInfo, entry_when, push, resolutionLabelText, queryTypeLabelText.
  destruct (truthy (Query.legendFormat q)), (truthy (Query.resolution q)),
    isLog, (truthy (Query.step q)); reflexivity.
Qed.

(** C1. Whatever the query, the resolved query type, the fallback line
    limit and the log-query flag, the summary is, in this order: a legend
    entry, a resolution entry, the query-type entry, and then either the
    line-limit entry (log query: the query's own limit, else the fallback)
    or a step entry followed by a second resolution entry (other queries).
    The query-type entry and, for a log query, the line-limit entry are
    always there; the legend, resolution and step entries are there only
    if the property is set (exactly: set to a non-empty string, a non-zero
    number). Nothing else is in the list. *)
Theorem getCollapsedInfo_precedence q t fallback isLog :
  exists legend resolution step : list string,
    getCollapsedInfo q t fallback isLog =
      legend ++ resolution ++ [("Type: " ++ queryTypeLabelText t)%string]
      ++ (if isLog
          then [("Line limit: "
                 ++ toString (match Query.maxLines q with
                              | val n => n
                              | undefined | null => fallback
                              end))%string]
          else step ++ resolution)
    /\ ((legend = [] /\ forall s, Query.legendFormat q = val s -> s = EmptyString)
        \/ exists s, Query.legendFormat q = val s /\ s <> EmptyString
                     /\ legend = [("Legend: " ++ s)%string])
    /\ ((resolution = [] /\ forall n, Query.resolution q = val n -> n = 0)
        \/ exists n, Query.resolution q = val n /\ n <> 0
                     /\ resolution = [("Resolution: " ++ resolutionLabelText q)%string])
    /\ ((step = [] /\ forall s, Query.step q = val s -> s = EmptyString)
        \/ exists s, Query.step q = val s /\ s <> EmptyString
                     /\ step = [("Step: " ++ s)%string]).
Proof.
  exists (entry_when (truthy (Query.legendFormat q))
                     ("Legend: " ++ toString (Query.legendFormat q))%string),
         (entry_when (truthy (Query.resolution q))
                     ("Resolution: " ++ resolutionLabelText q)%string),
         (entry_when (truthy (Query.step q))
                     ("Step: " ++ toString (Query.step q))%string).
  split; [|split; [|split]].
  - rewrite getCollapsedInfo_items.
    destruct (Query.maxLines q); reflexivity.
  - destruct (truthy (Query.legendFormat q)) eqn:E.
    + right. apply truthy_text in E. destruct E as [s [Hs Hne]].
      exists s. rewrite Hs. repeat split. exact Hne.
    + left. split; [reflexivity|].
      intros s Hs. rewrite Hs in E. destruct s; [reflexivity|discriminate].
  - destruct (truthy (Query.resolution q)) eqn:E.
    + right. apply truthy_number in E. destruct E as [n [Hn Hne]].
      exists n. repeat split; assumption.
    + left. split; [reflexivity|].
      intros n Hn. rewrite Hn in E.
      unfold truthy, ToBoolean_maybe, truthy, ToBoolean_number in E.
      apply negb_false_iff, Z.eqb_eq in E. exact E.
  - destruct (truthy (Query.step q)) eqn:E.
    + right. apply truthy_text in E. destruct E as [s [Hs Hne]].
      exists s. rewrite Hs. repeat split. exact Hne.
    + left. split; [reflexivity|].
      intros s Hs. rewrite Hs in E. destruct s; [reflexivity|discriminate].
Qed.

(** A resolution entry is told apart from every other entry by its first
    character, so counting occurrences counts the two guarded pushes. *)
Lemma count_resolution_entries q t fallback isLog :
  truthy (Query.resolution q) = true ->
  count_occ string_dec (getCollapsedInfo q t fallback isLog)
            ("Resolution: " ++ resolutionLabelText q)%string
  = if isLog then 1%nat else 2%nat.
Proof.
  intros Hres. rewrite getCollapsedInfo_items, Hres. unfold entry_when.
  set (r := resolutionLabelText q).
  assert (Hlegend : forall a, ("Legend: " ++ a)%string <> ("Resolution: " ++ r)%string)
    by (intros a; simpl; discriminate).
  assert (Htype : forall a, ("Type: " ++ a)%string <> ("Resolution: " ++ r)%string)
    by (intros a; simpl; discriminate).
  assert (Hlimit : forall a, ("Line limit: " ++ a)%string <> ("Resolution: " ++ r)%string)
    by (intros a; simpl; discriminate).
  assert (Hstep : forall a, ("Step: " ++ a)%string <> ("Resolution: " ++ r)%string)
    by (intros a; simpl; discriminate).
  destruct (truthy (Query.legendFormat q)), isLog, (truthy (Query.step q));
    cbn [app];
    repeat first
      [ rewrite count_occ_cons_eq by reflexivity
      | rewrite count_occ_cons_neq by auto
      | rewrite count_occ_nil ];
    reflexivity.
Qed.

(** C4. When the query's resolution is 2 and the resolution catalog's
    entry for 2 is labelled "1/2", the summary holds "Resolution: 1/2"
    exactly twice for a query that is not a log query and exactly once for
    a log query. *)
Theorem resolution_entry_occurrences q t fallback (entry : SelectableValue Z) :
  Query.resolution q = val 2 ->
  find (fun x => SelectableValue.value x === val 2) RESOLUTION_OPTIONS = Some entry ->
  SelectableValue.label entry = val "1/2" ->
  count_occ string_dec (getCollapsedInfo q t fallback false) "Resolution: 1/2" = 2%nat
  /\ count_occ string_dec (getCollapsedInfo q t fallback true) "Resolution: 1/2" = 1%nat.
Proof.
  intros Hres Hfind Hlabel.
  assert (Htext : resolutionLabelText q = "1/2").
  { unfold resolutionLabelText. rewrite Hres. cbn [coalesce].
    rewrite Hfind. cbn [optChain]. rewrite Hlabel. reflexivity. }
  assert (Htruthy : truthy (Query.resolution q) = true) by (rewrite Hres; reflexivity).
  split.
  - rewrite <- (count_resolution_entries q t fallback false Htruthy), Htext. reflexivity.
  - rewrite <- (count_resolution_entries q t fallback true Htruthy), Htext. reflexivity.
Qed.

Lemma prefix_append (p s : string) : prefix p (p ++ s)%string = true.
Proof.
  induction p as [|a p IH]; [destruct s; reflexivity|].
  simpl. destruct (ascii_dec a a) as [_|Hne]; [exact IH|contradiction].
Qed.

(** The entries ahead of the query-type entry are the legend entry and the
    first resolution entry. *)
Lemma before_type_entry_getCollapsedInfo q t fallback isLog :
  before_type_entry (getCollapsedInfo q t fallback isLog) =
    entry_when (truthy (Query.legendFormat q))
               ("Legend: " ++ toString (Query.legendFormat q))%string
    ++ entry_when (truthy (Query.resolution q))
                  ("Resolution: " ++ resolutionLabelText q)%string.
Proof.
  rewrite getCollapsedInfo_items. unfold entry_when.
  destruct (truthy (Query.legendFormat q)), (truthy (Query.resolution q));
    cbn [app before_type_entry];
    rewrite prefix_append; reflexivity.
Qed.

(** C5, as the code has it. The resolution entry ahead of the query-type
    entry is shown exactly when the query's resolution is set to a number
    other than 0; the default value 1 is such a number, so a query whose
    resolution is set to 1 does show the entry. *)
Theorem generic_resolution_entry_shown q t fallback isLog :
  has_generic_resolution_entry (getCollapsedInfo q t fallback isLog) = true
  <-> exists n, Query.resolution q = val n /\ n <> 0.
Proof.
  rewrite <- truthy_number.
  unfold has_generic_resolution_entry.
  rewrite before_type_entry_getCollapsedInfo. unfold entry_when.
  destruct (truthy (Query.legendFormat q)), (truthy (Query.resolution q));
    cbn [app existsb]; rewrite ?prefix_append; cbn; split; congruence.
Qed.

(** C7. For a log query whose [maxLines] is unset and a fallback of 10 the
    summary holds "Line limit: 10"; for a log query whose [maxLines] is 5
    it holds "Line limit: 5", whatever the fallback. *)
Theorem line_limit_entry q t :
  (Query.maxLines q = undefined -> In "Line limit: 10" (getCollapsedInfo q t 10 true))
  /\ (forall fallback,
        Query.maxLines q = val 5 -> In "Line limit: 5" (getCollapsedInfo q t fallback true)).
Proof.
  split; [|intros fallback]; intros Hmax;
    rewrite getCollapsedInfo_items, Hmax;
    do 3 (apply in_or_app; right); left; reflexivity.
Qed.

(** C10. The line-limit entry closes the summary of a log query. It shows
    the query's own [maxLines] whenever that is a number, 0 included
    ("Line limit: 0"); the fallback is shown only when [maxLines] is
    [undefined] or [null]. *)
Theorem line_limit_nullish_coalescing q t fallback :
  let items := getCollapsedInfo q t fallback true in
  (Query.maxLines q = val 0 -> last items EmptyString = "Line limit: 0")
  /\ (forall n, Query.maxLines q = val n ->
                last items EmptyString = ("Line limit: " ++ toString n)%string)
  /\ (is_nullish (Query.maxLines q) = true ->
      last items EmptyString = ("Line limit: " ++ toString fallback)%string).
Proof.
  intros items.
  assert (Hlast : last items EmptyString
                  = ("Line limit: " ++ toString (Query.maxLines q ?? fallback))%string).
  { unfold items. rewrite getCollapsedInfo_items, !app_assoc. apply last_last. }
  repeat split.
  - intros Hmax. rewrite Hlast, Hmax. reflexivity.
  - intros n Hmax. rewrite Hlast, Hmax. reflexivity.
  - intros Hmax. rewrite Hlast. destruct (Query.maxLines q); [reflexivity|reflexivity|discriminate].
Qed.

(** The step entry of a query that is not a log query: shown exactly when
    [step] is truthy, and then it reads that step. *)
Lemma step_entry q t fallback :
  existsb (prefix "Step: ") (getCollapsedInfo q t fallback false) = truthy (Query.step q)
  /\ (forall s, Query.step q = val s -> s <> EmptyString ->
                In ("Step: " ++ s)%string (getCollapsedInfo q t fallback false)).
Proof.
  rewrite getCollapsedInfo_items. unfold entry_when. split.
  - destruct (truthy (Query.legendFormat q)), (truthy (Query.resolution q)),
      (truthy (Query.step q));
      cbn [app existsb]; rewrite ?prefix_append; reflexivity.
  - intros s Hs Hne.
    assert (Htruthy : truthy (Query.step q) = true)
      by (apply truthy_text; exists s; split; assumption).
    rewrite Htruthy, Hs.
    do 3 (apply in_or_app; right). left. reflexivity.
Qed.

End SummaryProperties.

(** ** Properties of the options panel *)

Section PanelProperties.
Context {Rest : Type} {imports : Imports}.
Implicit Types (q update : LokiQuery Rest) (w : @World Rest) (c : @Commit).

Lemma strictEq_number_spec (x y : maybe Z) : (x === y) = true <-> x = y.
Proof.
  destruct x as [| |a], y as [| |b]; cbn; split; intros H;
    try reflexivity; try discriminate.
  - apply Z.eqb_eq in H. congruence.
  - injection H as ->. apply Z.eqb_refl.
Qed.

Lemma agrees_except_refl_on (f : Field) q update :
  Query.expr update = Query.expr q ->
  Query.instant update = Query.instant q ->
  Query.rest update = Query.rest q ->
  (f <> Type_ -> Query.queryType update = Query.queryType q) ->
  (f <> Legend -> Query.legendFormat update = Query.legendFormat q) ->
  (f <> LineLimit -> Query.maxLines update = Query.maxLines q) ->
  (f <> Step -> Query.step update = Query.step q) ->
  (f <> Resolution -> Query.resolution update = Query.resolution q) ->
  (f <> SplitDuration -> Query.splitDuration update = Query.splitDuration q) ->
  agrees_except f q update.
Proof. unfold agrees_except. intuition. Qed.

(** Closes an [agrees_except] goal whose update is a spread of [q]. *)
Ltac spread_agrees :=
  apply agrees_except_refl_on; cbn;
  solve [ reflexivity | intros; reflexivity | intros Hf; exfalso; apply Hf; reflexivity ].

(** C3. When the query's [queryType] is unset, the resolved type is
    Instant if [instant] is true and Range if [instant] is false or
    absent; when [queryType] is set, the resolved type is that value,
    whatever [instant] says. *)
Theorem queryType_fallback q :
  (is_nullish (Query.queryType q) = true -> Query.instant q = val true ->
   queryType q = Instant)
  /\ (is_nullish (Query.queryType q) = true ->
      Query.instant q = val false \/ is_nullish (Query.instant q) = true ->
      queryType q = Range)
  /\ (forall t, Query.queryType q = val t -> queryType q = t).
Proof.
  unfold queryType. repeat split.
  - intros Hunset Hinstant. rewrite Hinstant.
    destruct (Query.queryType q); try reflexivity; discriminate.
  - intros Hunset Hinstant.
    destruct (Query.queryType q); try discriminate;
      destruct Hinstant as [-> | Habs]; try reflexivity;
      destruct (Query.instant q); try reflexivity; discriminate.
  - intros t Hset. rewrite Hset. reflexivity.
Qed.

(** C2. Committing a split-duration text that [isValidDuration] rejects
    clears [splitDurationValid] and does nothing else: no callback is
    called and the query is left as it was. Committing a text it accepts
    sets [splitDurationValid], calls the update callback once with the query
    whose [splitDuration] is that text and whose other properties are
    unchanged, and then calls the run-query callback once. *)
Theorem onChunkRangeChange_validation evt w :
  let value := Event.currentTarget_value evt in
  (isValidDuration value = false ->
   calls_of (onChunkRangeChange evt) w = []
   /\ world_after (onChunkRangeChange evt) w = mkWorld (query w) false)
  /\ (isValidDuration value = true ->
      exists update,
        calls_of (onChunkRangeChange evt) w = [OnChange update; OnRunQuery]
        /\ Query.splitDuration update = val value
        /\ agrees_except SplitDuration (query w) update
        /\ world_after (onChunkRangeChange evt) w = mkWorld (query w) true).
Proof.
  intros value. unfold calls_of, world_after, onChunkRangeChange. fold value.
  split; intros Hvalid; rewrite Hvalid; cbn.
  - split; reflexivity.
  - eexists. split; [reflexivity|]. split; [reflexivity|]. split; [|reflexivity].
    spread_agrees.
Qed.

(** C8. Changing the resolution makes exactly three calls, in this order:
    the telemetry report, once, with the app context and the selected
    option's value; the update callback with the query whose [resolution]
    is that value; the run-query callback. The panel's own state is left as
    it was. *)
Theorem onResolutionChange_calls (app : maybe CoreApp) (selected : SelectableValue Z) w :
  calls_of (onResolutionChange app selected) w =
    [ ReportInteraction "grafana_loki_resolution_clicked" app (SelectableValue.value selected);
      OnChange (Query.with_resolution (query w) (SelectableValue.value selected));
      OnRunQuery ]
  /\ filter is_telemetry (calls_of (onResolutionChange app selected) w) =
       [ ReportInteraction "grafana_loki_resolution_clicked" app
                           (SelectableValue.value selected) ]
  /\ Query.resolution (Query.with_resolution (query w) (SelectableValue.value selected))
     = SelectableValue.value selected
  /\ world_after (onResolutionChange app selected) w = w.
Proof.
  repeat split.
Qed.

(** C6, as the code has it. An edit of the legend, the query type, the
    step or the resolution always goes through: the update callback is
    called and then the run-query callback. An edit of the line limit goes
    through only when the preprocessed new limit differs from the query's
    current [maxLines]; when the two are equal nothing is called and nothing
    changes. *)
Theorem commit_propagation (app : maybe CoreApp) c w :
  (field c <> SplitDuration ->
   (forall e, c = CommitLineLimit e ->
              Query.maxLines (query w) <> preprocessMaxLines (Event.currentTarget_value e)) ->
   propagated (calls_of (handle app c) w))
  /\ (forall e, c = CommitLineLimit e ->
                Query.maxLines (query w) = preprocessMaxLines (Event.currentTarget_value e) ->
                calls_of (handle app c) w = [] /\ world_after (handle app c) w = w).
Proof.
  split.
  - intros Hfield Hdiffers. unfold propagated.
    destruct c as [evt|value|e|e|selected|evt]; cbn [handle].
    + exists [], (Query.with_legendFormat (query w) (val (Event.currentTarget_value evt))).
      split; reflexivity.
    + exists [], (Query.with_queryType (query w) (val value)). split; reflexivity.
    + exists [], (Query.with_maxLines (query w)
                                     (preprocessMaxLines (Event.currentTarget_value e))).
      split; [|reflexivity].
      unfold calls_of, onMaxLinesChange, bind, getQuery.
      destruct (Query.maxLines (query w) === preprocessMaxLines (Event.currentTarget_value e))
        eqn:E; [|reflexivity].
      apply strictEq_number_spec in E. elim (Hdiffers e eq_refl E).
    + exists [], (Query.with_step (query w) (val (trim (Event.currentTarget_value e)))).
      split; reflexivity.
    + exists [ReportInteraction "grafana_loki_resolution_clicked" app
                                (SelectableValue.value selected)],
             (Query.with_resolution (query w) (SelectableValue.value selected)).
      split; reflexivity.
    + elim Hfield. reflexivity.
  - intros e -> Hsame. cbn [handle].
    unfold calls_of, world_after, onMaxLinesChange, bind, getQuery.
    apply strictEq_number_spec in Hsame. rewrite Hsame. cbn. split; reflexivity.
Qed.

(** C9. Whatever the edit, every query a handler hands to the update
    callback carries the same value as the query prop in every property but
    the one behind the edited field, and the object behind the query prop
    is the same after the handler as before. *)
Theorem handlers_replace_one_field (app : maybe CoreApp) c w :
  (forall update, In (OnChange update) (calls_of (handle app c) w) ->
                  agrees_except (field c) (query w) update)
  /\ query (world_after (handle app c) w) = query w.
Proof.
  split.
  - intros update Hin.
    destruct c as [evt|value|e|e|selected|evt]; cbn [handle field] in *;
      unfold calls_of, onLegendFormatChanged, onQueryTypeChange, onMaxLinesChange,
        onStepChange, onResolutionChange, onChunkRangeChange, bind, getQuery in Hin.
    + cbn in Hin. destruct Hin as [H|[H|[]]]; [|discriminate H].
      injection H as <-. spread_agrees.
    + cbn in Hin. destruct Hin as [H|[H|[]]]; [|discriminate H].
      injection H as <-. spread_agrees.
    + destruct (Query.maxLines (query w) !== preprocessMaxLines (Event.currentTarget_value e));
        cbn in Hin; [|contradiction].
      destruct Hin as [H|[H|[]]]; [|discriminate H].
      injection H as <-. spread_agrees.
    + cbn in Hin. destruct Hin as [H|[H|[]]]; [|discriminate H].
      injection H as <-. spread_agrees.
    + cbn in Hin. destruct Hin as [H|[H|[H|[]]]]; [discriminate H| |discriminate H].
      injection H as <-. spread_agrees.
    + destruct (negb (isValidDuration (Event.currentTarget_value evt)));
        cbn in Hin; [contradiction|].
      destruct Hin as [H|[H|[]]]; [|discriminate H].
      injection H as <-. spread_agrees.
  - destruct c as [evt|value|e|e|selected|evt]; cbn [handle];
      unfold world_after, onLegendFormatChanged, onQueryTypeChange, onMaxLinesChange,
        onStepChange, onResolutionChange, onChunkRangeChange, bind, getQuery;
      try reflexivity.
    + destruct (Query.maxLines (query w) !== preprocessMaxLines (Event.currentTarget_value e));
        reflexivity.
    + destruct (negb (isValidDuration (Event.currentTarget_value evt))); reflexivity.
Qed.

End PanelProperties.

(** ** The properties at work on the stand-ins *)

(** C2 at work: in a panel showing an invalid split duration, "2d" is
    accepted and goes through; in a panel showing a valid one, "abc" is
    rejected and only flips the flag. *)
Lemma onChunkRangeChange_validation_witness :
  (isValidDuration (Imports := Samples.imports) "abc" = false
   /\ calls_of (onChunkRangeChange (imports := Samples.imports) (Event.mk "abc"))
               (mkWorld Samples.logs true) = []
   /\ world_after (onChunkRangeChange (imports := Samples.imports) (Event.mk "abc"))
                  (mkWorld Samples.logs true) = mkWorld Samples.logs false)
  /\ (isValidDuration (Imports := Samples.imports) "2d" = true
      /\ exists update,
           calls_of (onChunkRangeChange (imports := Samples.imports) (Event.mk "2d"))
                    (mkWorld Samples.logs false) = [OnChange update; OnRunQuery]
           /\ Query.splitDuration update = val "2d"
           /\ agrees_except SplitDuration Samples.logs update
           /\ world_after (onChunkRangeChange (imports := Samples.imports) (Event.mk "2d"))
                          (mkWorld Samples.logs false) = mkWorld Samples.logs true).
Proof.
  split; (split; [reflexivity|]).
  - apply (proj1 (onChunkRangeChange_validation (imports := Samples.imports)
                    (Event.mk "abc") (mkWorld Samples.logs true))).
    reflexivity.
  - apply (proj2 (onChunkRangeChange_validation (imports := Samples.imports)
                    (Event.mk "2d") (mkWorld Samples.logs false))).
    reflexivity.
Defined.

(** C3 at work: the legacy flag alone, no hint at all, and an explicit type
    next to a contrary flag. *)
Lemma queryType_fallback_witness :
  queryType (Query.mk "{job=`app`}" undefined (val true)
                      undefined undefined undefined undefined undefined tt) = Instant
  /\ queryType Samples.logs = Range
  /\ queryType (Query.mk "{job=`app`}" (val Range) (val true)
                         undefined undefined undefined undefined undefined tt) = Range.
Proof.
  split; [|split].
  - apply (proj1 (queryType_fallback _)); reflexivity.
  - apply (proj1 (proj2 (queryType_fallback _))); [reflexivity|right; reflexivity].
  - apply (proj2 (proj2 (queryType_fallback _))); reflexivity.
Defined.

Example step_entry_5m :
  getCollapsedInfo (imports := Samples.imports)
                   (Query.with_step Samples.metric (val "5m")) Range 10 false
  = ["Type: Range"; "Step: 5m"]
  /\ getCollapsedInfo (imports := Samples.imports) Samples.metric Range 10 false
     = ["Type: Range"].
Proof. split; reflexivity. Qed.

(** C4 at work on the sample catalog, whose entry for 2 is labelled "1/2". *)
Lemma resolution_entry_occurrences_witness :
  Query.resolution (Query.with_resolution Samples.metric (val 2)) = val 2
  /\ find (fun x => SelectableValue.value x === val 2)
          (RESOLUTION_OPTIONS (Imports := Samples.imports))
     = Some (SelectableValue.mk (val 2) (val "1/2"))
  /\ count_occ string_dec
               (getCollapsedInfo (imports := Samples.imports)
                                 (Query.with_resolution Samples.metric (val 2)) Range 10 false)
               "Resolution: 1/2" = 2%nat
  /\ count_occ string_dec
               (getCollapsedInfo (imports := Samples.imports)
                                 (Query.with_resolution Samples.metric (val 2)) Range 10 true)
               "Resolution: 1/2" = 1%nat.
Proof.
  split; [reflexivity|]. split; [reflexivity|].
  apply (resolution_entry_occurrences (imports := Samples.imports)
           (Query.with_resolution Samples.metric (val 2)) Range 10
           (SelectableValue.mk (val 2) (val "1/2")));
    reflexivity.
Defined.

(** C5 as the spec words it fails: a metric query whose resolution is set
    to the default 1 opens its summary with "Resolution: 1/1". *)
Lemma default_resolution_entry_is_shown :
  Query.resolution (Query.with_resolution Samples.metric (val 1)) = val 1
  /\ getCollapsedInfo (imports := Samples.imports)
                      (Query.with_resolution Samples.metric (val 1)) Range 10 false
     = ["Resolution: 1/1"; "Type: Range"; "Resolution: 1/1"]
  /\ has_generic_resolution_entry
       (getCollapsedInfo (imports := Samples.imports)
                         (Query.with_resolution Samples.metric (val 1)) Range 10 false)
     = true.
Proof. repeat split. Qed.

(** C5 at work: resolution 1 shows the entry, an unset resolution does not. *)
Lemma generic_resolution_entry_shown_witness :
  has_generic_resolution_entry
    (getCollapsedInfo (imports := Samples.imports)
                      (Query.with_resolution Samples.metric (val 1)) Range 10 false) = true
  /\ ~ has_generic_resolution_entry
         (getCollapsedInfo (imports := Samples.imports) Samples.metric Range 10 false) = true.
Proof.
  split.
  - apply (proj2 (generic_resolution_entry_shown (imports := Samples.imports)
                    (Query.with_resolution Samples.metric (val 1)) Range 10 false)).
    exists 1. split; [reflexivity|discriminate].
  - intros H.
    apply (proj1 (generic_resolution_entry_shown (imports := Samples.imports)
                    Samples.metric Range 10 false)) in H.
    destruct H as [n [Hn _]]. discriminate Hn.
Defined.

(** C6 as the spec words it fails: committing "5" in the line-limit field
    of a query whose [maxLines] is already 5 calls neither callback. *)
Lemma line_limit_commit_suppressed :
  field (CommitLineLimit (Event.mk "5")) <> SplitDuration
  /\ calls_of (handle (imports := Samples.imports) undefined (CommitLineLimit (Event.mk "5")))
              (mkWorld (Query.with_maxLines Samples.logs (val 5)) true) = []
  /\ ~ propagated
         (calls_of (handle (imports := Samples.imports) undefined
                           (CommitLineLimit (Event.mk "5")))
                   (mkWorld (Query.with_maxLines Samples.logs (val 5)) true)).
Proof.
  split; [discriminate|]. split; [reflexivity|].
  intros [telemetry [update [H _]]]. cbn in H.
  destruct telemetry; discriminate H.
Qed.

(** C6 at work: a new line limit goes through, the same one does not. *)
Lemma commit_propagation_witness :
  propagated
    (calls_of (handle (imports := Samples.imports) undefined (CommitLineLimit (Event.mk "6")))
              (mkWorld (Query.with_maxLines Samples.logs (val 5)) true))
  /\ calls_of (handle (imports := Samples.imports) undefined (CommitLineLimit (Event.mk "5")))
              (mkWorld (Query.with_maxLines Samples.logs (val 5)) true) = []
  /\ world_after (handle (imports := Samples.imports) undefined
                         (CommitLineLimit (Event.mk "5")))
                 (mkWorld (Query.with_maxLines Samples.logs (val 5)) true)
     = mkWorld (Query.with_maxLines Samples.logs (val 5)) true.
Proof.
  split.
  - apply (proj1 (commit_propagation (imports := Samples.imports) undefined
                    (CommitLineLimit (Event.mk "6"))
                    (mkWorld (Query.with_maxLines Samples.logs (val 5)) true))).
    + discriminate.
    + intros e He. injection He as <-. discriminate.
  - apply (proj2 (commit_propagation (imports := Samples.imports) undefined
                    (CommitLineLimit (Event.mk "5"))
                    (mkWorld (Query.with_maxLines Samples.logs (val 5)) true))
             (Event.mk "5") eq_refl).
    reflexivity.
Defined.

(** C7 at work. *)
Lemma line_limit_entry_witness :
  In "Line limit: 10" (getCollapsedInfo (imports := Samples.imports) Samples.logs Range 10 true)
  /\ In "Line limit: 5"
        (getCollapsedInfo (imports := Samples.imports)
                          (Query.with_maxLines Samples.logs (val 5)) Range 10 true).
Proof.
  split.
  - apply (proj1 (line_limit_entry (imports := Samples.imports) Samples.logs Range)).
    reflexivity.
  - apply (proj2 (line_limit_entry (imports := Samples.imports)
                    (Query.with_maxLines Samples.logs (val 5)) Range)).
    reflexivity.
Defined.

(** C9 at work: the query handed over after the step " 5m " is committed
    differs from the query prop in its step at most. *)
Lemma handlers_replace_one_field_witness :
  In (OnChange (Query.with_step Samples.metric (val "5m")))
     (calls_of (handle (imports := Samples.imports) undefined (CommitStep (Event.mk " 5m ")))
               (mkWorld Samples.metric true))
  /\ agrees_except Step Samples.metric (Query.with_step Samples.metric (val "5m")).
Proof.
  split; [left; reflexivity|].
  apply (proj1 (handlers_replace_one_field (imports := Samples.imports) undefined
                  (CommitStep (Event.mk " 5m ")) (mkWorld Samples.metric true))).
  left. reflexivity.
Defined.

(** C10 at work: a line limit of 0 is shown as such, next to a fallback
    of 10. *)
Lemma line_limit_nullish_coalescing_witness :
  last (getCollapsedInfo (imports := Samples.imports)
                         (Query.with_maxLines Samples.logs (val 0)) Range 10 true)
       EmptyString = "Line limit: 0"
  /\ last (getCollapsedInfo (imports := Samples.imports) Samples.logs Range 10 true)
          EmptyString = "Line limit: 10".
Proof.
  split.
  - apply (proj1 (line_limit_nullish_coalescing (imports := Samples.imports)
                    (Query.with_maxLines Samples.logs (val 0)) Range 10)).
    reflexivity.
  - apply (proj2 (proj2 (line_limit_nullish_coalescing (imports := Samples.imports)
                           Samples.logs Range 10))).
    reflexivity.
Defined.

(** ** Further properties of the summary deriver *)

Section SummaryReads.
Context {Rest : Type} {imports : Imports}.
Implicit Types (q : LokiQuery Rest) (t : LokiQueryType) (fallback : Z) (isLog : bool).

Lemma find_no_match {A : Type} (f : A -> bool) (l : list A) :
  forallb (fun x => negb (f x)) l = true -> find f l = None.
Proof.
  induction l as [|a l IH]; [reflexivity|].
  cbn. destruct (f a); cbn; [discriminate|exact IH].
Qed.

(** X1. The summary is never empty and never longer than five entries; for a
    log query it has between two and four. *)
Theorem getCollapsedInfo_length q t fallback isLog :
  getCollapsedInfo q t fallback isLog <> []
  /\ (if isLog
      then 2 <= List.length (getCollapsedInfo q t fallback isLog) <= 4
      else 1 <= List.length (getCollapsedInfo q t fallback isLog) <= 5)%nat.
Proof.
  rewrite getCollapsedInfo_items. unfold entry_when.
  destruct (truthy (Query.legendFormat q)), (truthy (Query.resolution q)), isLog,
    (truthy (Query.step q)); cbn; split; try discriminate; split; repeat constructor.
Qed.

(** X2. The summary of a log query is a function of the query's legend,
    resolution and effective line limit alone: two queries, even of
    different shapes, that agree on these have the same summary. Step,
    split duration, expression, the query's own type and instant flag and
    all other properties are not read. *)
Theorem getCollapsedInfo_log_reads {Rest' : Type} q (q' : LokiQuery Rest') t fallback fallback' :
  Query.legendFormat q = Query.legendFormat q' ->
  Query.resolution q = Query.resolution q' ->
  Query.maxLines q ?? fallback = Query.maxLines q' ?? fallback' ->
  getCollapsedInfo q t fallback true = getCollapsedInfo q' t fallback' true.
Proof.
  intros Hlegend Hres Hlimit. unfold getCollapsedInfo.
  rewrite Hlegend, Hres, Hlimit. reflexivity.
Qed.

(** X3. The summary of a query that is not a log query is a function of the
    query's legend, resolution and step alone; in particular neither the
    query's line limit nor the fallback line limit is read. *)
Theorem getCollapsedInfo_metric_reads {Rest' : Type} q (q' : LokiQuery Rest') t
        fallback fallback' :
  Query.legendFormat q = Query.legendFormat q' ->
  Query.resolution q = Query.resolution q' ->
  Query.step q = Query.step q' ->
  getCollapsedInfo q t fallback false = getCollapsedInfo q' t fallback' false.
Proof.
  intros Hlegend Hres Hstep. unfold getCollapsedInfo.
  rewrite Hlegend, Hres, Hstep. reflexivity.
Qed.

(** X4. A value with no entry in its catalog is shown with the label text
    "undefined": the query-type entry reads "Type: undefined", and every
    resolution entry of a query with such a non-zero resolution reads
    "Resolution: undefined". *)
Theorem getCollapsedInfo_unknown_value q t fallback isLog :
  (forallb (fun x => negb (SelectableValue.value x === val t)) queryTypeOptions = true ->
   In "Type: undefined" (getCollapsedInfo q t fallback isLog))
  /\ (forall n,
        Query.resolution q = val n -> n <> 0 ->
        forallb (fun x => negb (SelectableValue.value x === val n)) RESOLUTION_OPTIONS = true ->
        count_occ string_dec (getCollapsedInfo q t fallback isLog) "Resolution: undefined"
        = if isLog then 1%nat else 2%nat).
Proof.
  split.
  - intros Hnone. rewrite getCollapsedInfo_items.
    do 2 (apply in_or_app; right). left.
    unfold queryTypeLabelText. rewrite (find_no_match _ _ Hnone). reflexivity.
  - intros n Hres Hn Hnone.
    assert (Htext : resolutionLabelText q = "undefined").
    { unfold resolutionLabelText. rewrite Hres. cbn [coalesce].
      rewrite (find_no_match _ _ Hnone). reflexivity. }
    assert (Htruthy : truthy (Query.resolution q) = true)
      by (apply truthy_number; exists n; split; assumption).
    rewrite <- (count_resolution_entries q t fallback isLog Htruthy), Htext. reflexivity.
Qed.

End SummaryReads.

(** ** Further properties of the handlers *)

Section HandlerProperties.
Context {Rest : Type} {imports : Imports}.
Implicit Types (q update : LokiQuery Rest) (w : @World Rest) (c : @Commit)
         (app : maybe CoreApp).

Lemma spread_same_maxLines q : Query.with_maxLines q (Query.maxLines q) = q.
Proof. destruct q; reflexivity. Qed.

Lemma world_ext w w' :
  query w = query w' -> splitDurationValid w = splitDurationValid w' -> w = w'.
Proof. destruct w, w'; cbn; intros -> ->; reflexivity. Qed.

(** The query the parent holds after one edit cycle. *)
Lemma commit_query app c w :
  query (commit app c w) =
    match c with
    | CommitLegend evt =>
        Query.with_legendFormat (query w) (val (Event.currentTarget_value evt))
    | CommitType value => Query.with_queryType (query w) (val value)
    | CommitLineLimit e =>
        Query.with_maxLines (query w) (preprocessMaxLines (Event.currentTarget_value e))
    | CommitStep e => Query.with_step (query w) (val (trim (Event.currentTarget_value e)))
    | CommitResolution selected =>
        Query.with_resolution (query w) (SelectableValue.value selected)
    | CommitSplitDuration evt =>
        if isValidDuration (Event.currentTarget_value evt)
        then Query.with_splitDuration (query w) (val (Event.currentTarget_value evt))
        else query w
    end.
Proof.
  destruct c as [evt|value|e|e|selected|evt]; try reflexivity.
  - unfold commit, query_after, calls_of. cbn [handle query].
    unfold onMaxLinesChange, bind, getQuery.
    destruct (Query.maxLines (query w) === preprocessMaxLines (Event.currentTarget_value e))
      eqn:E; cbn; [|reflexivity].
    apply strictEq_number_spec in E. rewrite <- E. symmetry. apply spread_same_maxLines.
  - unfold commit, query_after, calls_of. cbn [handle query].
    unfold onChunkRangeChange.
    destruct (isValidDuration (Event.currentTarget_value evt)); reflexivity.
Qed.

(** The state cell after one edit cycle. *)
Lemma commit_flag app c w :
  splitDurationValid (commit app c w) =
    match c with
    | CommitSplitDuration evt => isValidDuration (Event.currentTarget_value evt)
    | _ => splitDurationValid w
    end.
Proof.
  destruct c as [evt|value|e|e|selected|evt]; try reflexivity.
  - unfold commit, world_after. cbn [handle splitDurationValid].
    unfold onMaxLinesChange, bind, getQuery.
    destruct (Query.maxLines (query w) !== preprocessMaxLines (Event.currentTarget_value e));
      reflexivity.
  - unfold commit, world_after. cbn [handle splitDurationValid].
    unfold onChunkRangeChange.
    destruct (isValidDuration (Event.currentTarget_value evt)); reflexivity.
Qed.

(** X5. Whatever the edit, a handler makes one of three call sequences: none
    at all, which only the line-limit and split-duration handlers can do;
    the update callback then the run-query callback, for every field but
    resolution; or the telemetry report followed by those two, for
    resolution only. So run-query is never called without an update just
    before it, and no handler calls either callback twice. *)
Theorem handle_call_sequences app c w :
  match calls_of (handle app c) w with
  | [] => field c = LineLimit \/ field c = SplitDuration
  | [OnChange _; OnRunQuery] => field c <> Resolution
  | [ReportInteraction _ _ _; OnChange _; OnRunQuery] => field c = Resolution
  | _ => False
  end.
Proof.
  destruct c as [evt|value|e|e|selected|evt]; cbn [handle field];
    unfold calls_of, onMaxLinesChange, onChunkRangeChange, bind, getQuery;
    try (cbn; first [reflexivity | discriminate]).
  - destruct (Query.maxLines (query w) !== preprocessMaxLines (Event.currentTarget_value e));
      cbn; [discriminate|left; reflexivity].
  - destruct (negb (isValidDuration (Event.currentTarget_value evt)));
      cbn; [right; reflexivity|discriminate].
Qed.

(** X6. Only a split-duration edit touches the panel's own state: every other
    handler leaves the world as it found it. After a split-duration edit
    the validity flag is the verdict on the text just committed, whatever
    the flag was before. *)
Theorem state_cell_after_edit app c w :
  (field c <> SplitDuration -> world_after (handle app c) w = w)
  /\ (forall evt, c = CommitSplitDuration evt ->
                  splitDurationValid (world_after (handle app c) w)
                  = isValidDuration (Event.currentTarget_value evt)).
Proof.
  split.
  - intros Hfield.
    destruct c as [evt|value|e|e|selected|evt]; cbn [handle];
      unfold world_after, onMaxLinesChange, bind, getQuery; try reflexivity.
    + destruct (Query.maxLines (query w) !== preprocessMaxLines (Event.currentTarget_value e));
        reflexivity.
    + elim Hfield. reflexivity.
  - intros evt ->. cbn [handle]. unfold world_after, onChunkRangeChange.
    destruct (isValidDuration (Event.currentTarget_value evt)); reflexivity.
Qed.

(** X7. The query handed to the update callback carries the committed value in
    the edited property: the legend text as typed (an empty text
    included), the selected type, the preprocessed line limit, the trimmed
    step, the selected option's value (which may be missing) and the split
    duration as typed. *)
Theorem committed_value_is_stored app c w update :
  In (OnChange update) (calls_of (handle app c) w) ->
  match c with
  | CommitLegend evt => Query.legendFormat update = val (Event.currentTarget_value evt)
  | CommitType value => Query.queryType update = val value
  | CommitLineLimit e =>
      Query.maxLines update = preprocessMaxLines (Event.currentTarget_value e)
  | CommitStep e => Query.step update = val (trim (Event.currentTarget_value e))
  | CommitResolution selected => Query.resolution update = SelectableValue.value selected
  | CommitSplitDuration evt =>
      Query.splitDuration update = val (Event.currentTarget_value evt)
  end.
Proof.
  intros Hin.
  destruct c as [evt|value|e|e|selected|evt]; cbn [handle] in Hin;
    unfold calls_of, onLegendFormatChanged, onQueryTypeChange, onMaxLinesChange,
      onStepChange, onResolutionChange, onChunkRangeChange, bind, getQuery in Hin.
  - cbn in Hin. destruct Hin as [H|[H|[]]]; [|discriminate H].
    injection H as <-. reflexivity.
  - cbn in Hin. destruct Hin as [H|[H|[]]]; [|discriminate H].
    injection H as <-. reflexivity.
  - destruct (Query.maxLines (query w) !== preprocessMaxLines (Event.currentTarget_value e));
      cbn in Hin; [|contradiction].
    destruct Hin as [H|[H|[]]]; [|discriminate H].
    injection H as <-. reflexivity.
  - cbn in Hin. destruct Hin as [H|[H|[]]]; [|discriminate H].
    injection H as <-. reflexivity.
  - cbn in Hin. destruct Hin as [H|[H|[H|[]]]]; [discriminate H| |discriminate H].
    injection H as <-. reflexivity.
  - destruct (negb (isValidDuration (Event.currentTarget_value evt)));
      cbn in Hin; [contradiction|].
    destruct Hin as [H|[H|[]]]; [|discriminate H].
    injection H as <-. reflexivity.
Qed.

(** X8. Once the parent has adopted a line-limit edit, committing the same text
    again makes no call: the guard of [onMaxLinesChange] makes the edit
    idempotent, whether or not the first commit went through. *)
Theorem line_limit_recommit_is_silent app e w :
  calls_of (handle app (CommitLineLimit e)) (commit app (CommitLineLimit e) w) = []
  /\ commit app (CommitLineLimit e) (commit app (CommitLineLimit e) w)
     = commit app (CommitLineLimit e) w.
Proof.
  assert (Hsilent :
            calls_of (handle app (CommitLineLimit e)) (commit app (CommitLineLimit e) w) = []).
  { cbn [handle]. unfold calls_of, onMaxLinesChange, bind, getQuery.
    rewrite commit_query. cbn [Query.maxLines Query.with_maxLines].
    assert (E : (preprocessMaxLines (Event.currentTarget_value e)
                 === preprocessMaxLines (Event.currentTarget_value e)) = true)
      by (apply strictEq_number_spec; reflexivity).
    rewrite E. reflexivity. }
  split; [exact Hsilent|].
  apply world_ext.
  - unfold commit at 1. rewrite Hsilent. reflexivity.
  - rewrite !commit_flag. reflexivity.
Qed.

(** X9. After a type edit the panel resolves the query type to the selected
    one, whatever the legacy [instant] flag says, and its summary is the
    previous one with the type entry of the selected type. No other edit
    changes the resolved type. *)
Theorem resolved_type_after_edit app c w (maxLines : Z) :
  (forall value, c = CommitType value ->
     queryType (query (commit app c w)) = value
     /\ collapsedInfo (query (commit app c w)) maxLines
        = getCollapsedInfo (query w) value maxLines (isLogQuery (query w)))
  /\ (field c <> Type_ -> queryType (query (commit app c w)) = queryType (query w)).
Proof.
  split.
  - intros value ->. rewrite commit_query. split; reflexivity.
  - intros Hfield. rewrite commit_query.
    destruct c as [evt|value|e|e|selected|evt]; try reflexivity.
    + elim Hfield. reflexivity.
    + destruct (isValidDuration (Event.currentTarget_value evt)); reflexivity.
Qed.

(** X10. Edits of two different fields can be adopted in either order: the
    query the parent ends up with and the panel's state are the same. *)
Theorem edits_of_different_fields_commute app c1 c2 w :
  field c1 <> field c2 ->
  commit app c2 (commit app c1 w) = commit app c1 (commit app c2 w).
Proof.
  intros Hfields. apply world_ext.
  - rewrite !commit_query.
    destruct c1 as [evt1|value1|e1|e1|selected1|evt1],
             c2 as [evt2|value2|e2|e2|selected2|evt2];
      try (elim Hfields; reflexivity);
      try reflexivity;
      repeat match goal with
             | |- context [isValidDuration ?v] => destruct (isValidDuration v)
             end;
      reflexivity.
  - rewrite !commit_flag.
    destruct c1, c2; try reflexivity. elim Hfields. reflexivity.
Qed.

End HandlerProperties.

(** ** The summary after an edit *)

Section SummaryAfterEdit.
Context {Rest : Type} {imports : Imports}.
Implicit Types (q update : LokiQuery Rest) (w : @World Rest) (c : @Commit)
         (app : maybe CoreApp) (t : LokiQueryType) (fallback : Z) (isLog : bool).

(** X11. A legend edit changes the legend entry of the summary and nothing
    else: the new summary is the summary of the query without a legend,
    headed by "Legend: " and the text as typed unless that text is empty. *)
Theorem legend_edit_summary app evt w t fallback isLog :
  getCollapsedInfo (query (commit app (CommitLegend evt) w)) t fallback isLog
  = entry_when (truthy (Event.currentTarget_value evt))
               ("Legend: " ++ Event.currentTarget_value evt)%string
    ++ getCollapsedInfo (Query.with_legendFormat (query w) undefined) t fallback isLog.
Proof.
  rewrite commit_query, !getCollapsedInfo_items. reflexivity.
Qed.

(** X12. Edits that do not show in the summary: a split-duration edit, valid
    or not; a type edit, as long as the same resolved type is passed; a
    line-limit edit on a query that is not a log query; a step edit on a
    log query. *)
Theorem summary_blind_to_edit app c w t fallback isLog :
  field c = SplitDuration \/ field c = Type_
  \/ (field c = LineLimit /\ isLog = false) \/ (field c = Step /\ isLog = true) ->
  getCollapsedInfo (query (commit app c w)) t fallback isLog
  = getCollapsedInfo (query w) t fallback isLog.
Proof.
  intros Hcase. rewrite commit_query.
  destruct c as [evt|value|e|e|selected|evt]; cbn [field] in Hcase;
    try (exfalso; destruct Hcase as [H|[H|[[H _]|[H _]]]]; discriminate H).
  - reflexivity.
  - destruct Hcase as [H|[H|[[_ ->]|[H _]]]]; try discriminate H. reflexivity.
  - destruct Hcase as [H|[H|[[H _]|[_ ->]]]]; try discriminate H. reflexivity.
  - destruct (isValidDuration (Event.currentTarget_value evt)); reflexivity.
Qed.

(** X13. A line-limit edit on a log query rewrites the closing entry of the
    summary and leaves the entries before it alone; the entry shows the
    preprocessed limit, or the fallback when the text preprocesses to no
    number. *)
Theorem line_limit_edit_summary app e w t fallback :
  getCollapsedInfo (query (commit app (CommitLineLimit e) w)) t fallback true
  = removelast (getCollapsedInfo (query w) t fallback true)
    ++ [("Line limit: "
         ++ toString (preprocessMaxLines (Event.currentTarget_value e) ?? fallback))%string].
Proof.
  rewrite commit_query, !getCollapsedInfo_items.
  cbn [Query.legendFormat Query.resolution Query.maxLines Query.with_maxLines].
  change (resolutionLabelText (Query.with_maxLines (query w)
            (preprocessMaxLines (Event.currentTarget_value e))))
    with (resolutionLabelText (query w)).
  rewrite !app_assoc, removelast_last. reflexivity.
Qed.

(** X14. A step edit on a query that is not a log query shows the step as
    trimmed; a text that trims to nothing leaves the summary without a step
    entry. *)
Theorem step_edit_summary app e w t fallback :
  existsb (prefix "Step: ")
          (getCollapsedInfo (query (commit app (CommitStep e) w)) t fallback false)
  = truthy (trim (Event.currentTarget_value e))
  /\ (trim (Event.currentTarget_value e) <> EmptyString ->
      In ("Step: " ++ trim (Event.currentTarget_value e))%string
         (getCollapsedInfo (query (commit app (CommitStep e) w)) t fallback false)).
Proof.
  rewrite commit_query.
  destruct (step_entry (Query.with_step (query w) (val (trim (Event.currentTarget_value e))))
                       t fallback) as [Hshown Hin].
  split.
  - rewrite Hshown. reflexivity.
  - intros Hne. apply Hin; [reflexivity|exact Hne].
Qed.

(** X15. Picking from the resolution catalog: when the selected option has a
    non-zero value and is the catalog's first entry for that value, the
    summary of the adopted query shows that option's label, twice for a
    query that is not a log query and once for a log query. *)
Theorem resolution_edit_summary app (selected : SelectableValue Z) w t fallback isLog n :
  SelectableValue.value selected = val n -> n <> 0 ->
  find (fun x => SelectableValue.value x === val n) RESOLUTION_OPTIONS = Some selected ->
  count_occ string_dec
            (getCollapsedInfo (query (commit app (CommitResolution selected) w))
                              t fallback isLog)
            ("Resolution: " ++ toString (SelectableValue.label selected))%string
  = if isLog then 1%nat else 2%nat.
Proof.
  intros Hvalue Hn Hfind. rewrite commit_query.
  set (q' := Query.with_resolution (query w) (SelectableValue.value selected)).
  assert (Htext : resolutionLabelText q' = toString (SelectableValue.label selected)).
  { unfold resolutionLabelText, q'. cbn [Query.resolution Query.with_resolution].
    rewrite Hvalue. cbn [coalesce]. rewrite Hfind. reflexivity. }
  assert (Htruthy : truthy (Query.resolution q') = true).
  { apply truthy_number. exists n. split; [exact Hvalue|exact Hn]. }
  rewrite <- (count_resolution_entries q' t fallback isLog Htruthy), Htext. reflexivity.
Qed.

End SummaryAfterEdit.

(** ** Properties of the rendered panel *)

Section RenderProperties.
Context {Rest Stats : Type} {imports : Imports}.
Implicit Types (q : LokiQuery Rest) (w : @World Rest) (toggles : Rendered.FeatureToggles)
         (stats : maybe Stats) (maxLines : Z) (flag : bool).

(** X16. Which fields are on screen: legend and type always; the line limit
    for a log query only; step and resolution for any other query only;
    the split duration when both feature toggles are on. No two fields
    shown are bound to the same handler. *)
Theorem rendered_fields toggles q maxLines stats flag (f : Field) :
  (match Rendered.fieldFor f (Rendered.render toggles q maxLines stats flag) with
   | Some shown => Rendered.edits shown = f
   | None => True
   end)
  /\ (match Rendered.fieldFor f (Rendered.render toggles q maxLines stats flag) with
      | Some _ => true
      | None => false
      end
      = match f with
        | Legend | Type_ => true
        | LineLimit => isLogsQuery (Query.expr q)
        | Step | Resolution => negb (isLogsQuery (Query.expr q))
        | SplitDuration =>
            truthy (Rendered.lokiQuerySplittingConfig toggles)
            && truthy (Rendered.lokiQuerySplitting toggles)
        end)
  /\ NoDup (map Rendered.edits
                (Rendered.children (Rendered.render toggles q maxLines stats flag))).
Proof.
  unfold Rendered.fieldFor, Rendered.render, Rendered.shown_when, isLogQuery.
  cbn [Rendered.children].
  destruct (isLogsQuery (Query.expr q)),
    (truthy (Rendered.lokiQuerySplittingConfig toggles)),
    (truthy (Rendered.lokiQuerySplitting toggles));
    cbn [negb andb app map Rendered.edits];
    (split; [destruct f; cbn; trivial
            |split; [destruct f; reflexivity
                    |repeat (constructor; [cbn; intuition discriminate|]); constructor]]).
Qed.

(** X17. The resolution selector never shows 0: it shows the query's resolution
    when that is a non-zero number and 1 otherwise. Whenever the summary has
    a resolution entry, its label is the catalog label of the value the
    selector shows. *)
Theorem resolution_selector_and_summary toggles q maxLines stats flag :
  isLogsQuery (Query.expr q) = false ->
  exists shown : Z,
    Rendered.fieldFor Resolution (Rendered.render toggles q maxLines stats flag)
    = Some (Rendered.mkField "Resolution" (Rendered.Select RESOLUTION_OPTIONS shown) Resolution)
    /\ shown <> 0
    /\ (forall n, Query.resolution q = val n -> n <> 0 -> shown = n)
    /\ (truthy (Query.resolution q) = false -> shown = 1)
    /\ (truthy (Query.resolution q) = true ->
        resolutionLabelText q
        = toString (optChain (find (fun x => SelectableValue.value x === val shown)
                                   RESOLUTION_OPTIONS)
                             SelectableValue.label)).
Proof.
  intros Hmetric.
  exists (Rendered.orElse (Query.resolution q) 1).
  split; [|split; [|split; [|split]]].
  - unfold Rendered.fieldFor, Rendered.render, Rendered.shown_when, isLogQuery.
    rewrite Hmetric. reflexivity.
  - destruct (Query.resolution q) as [| |n]; cbn; try discriminate.
    unfold truthy, ToBoolean_number. destruct (n =? 0) eqn:E; cbn; [discriminate|].
    apply Z.eqb_neq. exact E.
  - intros n Hres Hn. rewrite Hres. cbn. unfold truthy, ToBoolean_number.
    apply Z.eqb_neq in Hn. rewrite Hn. reflexivity.
  - intros Hfalsy. destruct (Query.resolution q) as [| |n]; cbn; try reflexivity.
    cbn in Hfalsy. rewrite Hfalsy. reflexivity.
  - intros Htruthy. unfold resolutionLabelText.
    destruct (Query.resolution q) as [| |n]; try discriminate Htruthy.
    cbn in Htruthy. cbn. rewrite Htruthy. reflexivity.
Qed.

(** X18. The line-limit input of a log query and the summary tell the same
    number: the closing entry of the summary shows the input's default
    value when the query has a line limit, and the input's placeholder, the
    fallback, when it has none. *)
Theorem line_limit_input_and_summary toggles q maxLines stats flag :
  isLogsQuery (Query.expr q) = true ->
  exists placeholder defaultValue : string,
    Rendered.fieldFor LineLimit (Rendered.render toggles q maxLines stats flag)
    = Some (Rendered.mkField "Line limit"
              (Rendered.AutoSizeInput (val placeholder) "number" (val defaultValue) undefined)
              LineLimit)
    /\ last (Rendered.collapsedInfo (Rendered.render toggles q maxLines stats flag))
            EmptyString
       = ("Line limit: "
          ++ (if is_nullish (Query.maxLines q) then placeholder else defaultValue))%string
    /\ (is_nullish (Query.maxLines q) = true -> defaultValue = EmptyString).
Proof.
  intros Hlog.
  exists (toString maxLines),
         (Rendered.optToString (Query.maxLines q) ?? EmptyString).
  split; [|split].
  - unfold Rendered.fieldFor, Rendered.render, Rendered.shown_when, isLogQuery.
    rewrite Hlog. reflexivity.
  - unfold Rendered.render, isLogQuery. cbn [Rendered.collapsedInfo].
    rewrite Hlog, getCollapsedInfo_items, !app_assoc, last_last.
    destruct (Query.maxLines q); reflexivity.
  - destruct (Query.maxLines q); [reflexivity|reflexivity|discriminate].
Qed.

(** X19. The split-duration field after an edit, with both toggles on: a
    rejected text marks the field invalid and leaves its default value at
    the query's split duration ("1d" when the query has none); an accepted
    text clears the mark and, once adopted, is the default value. *)
Theorem split_duration_field_after_edit toggles (app : maybe CoreApp) evt w maxLines stats :
  truthy (Rendered.lokiQuerySplittingConfig toggles) = true ->
  truthy (Rendered.lokiQuerySplitting toggles) = true ->
  Rendered.fieldFor SplitDuration
    (Rendered.renderIn toggles maxLines stats (commit app (CommitSplitDuration evt) w))
  = Some (Rendered.mkField "Split Duration"
            (Rendered.AutoSizeInput
               undefined "string"
               (val (if isValidDuration (Event.currentTarget_value evt)
                     then Event.currentTarget_value evt
                     else Query.splitDuration (query w) ?? "1d"))
               (val (negb (isValidDuration (Event.currentTarget_value evt)))))
            SplitDuration).
Proof.
  intros Hconfig Hsplitting.
  unfold Rendered.renderIn. rewrite commit_query, commit_flag.
  unfold Rendered.fieldFor, Rendered.render, Rendered.shown_when.
  rewrite Hconfig, Hsplitting. cbn [Rendered.children andb].
  destruct (isLogQuery _), (isValidDuration (Event.currentTarget_value evt)); reflexivity.
Qed.

End RenderProperties.

(** ** The further properties at work on the stand-ins *)

Lemma getCollapsedInfo_log_reads_witness :
  getCollapsedInfo (imports := Samples.imports) Samples.logs Range 10 true
  = getCollapsedInfo (imports := Samples.imports) MoreSamples.logs_with_refId Range 10 true.
Proof.
  apply (getCollapsedInfo_log_reads (imports := Samples.imports)
           Samples.logs MoreSamples.logs_with_refId Range 10 10);
    reflexivity.
Defined.

Lemma getCollapsedInfo_metric_reads_witness :
  getCollapsedInfo (imports := Samples.imports) Samples.metric Instant 10 false
  = getCollapsedInfo (imports := Samples.imports)
                     (Query.with_maxLines Samples.metric (val 7)) Instant 1000 false.
Proof.
  apply (getCollapsedInfo_metric_reads (imports := Samples.imports)
           Samples.metric (Query.with_maxLines Samples.metric (val 7)) Instant 10 1000);
    reflexivity.
Defined.

Lemma getCollapsedInfo_unknown_value_witness :
  In "Type: undefined"
     (getCollapsedInfo (imports := MoreSamples.no_catalogs) Samples.metric Range 10 false)
  /\ count_occ string_dec
               (getCollapsedInfo (imports := Samples.imports)
                                 (Query.with_resolution Samples.metric (val 7)) Range 10 false)
               "Resolution: undefined" = 2%nat.
Proof.
  split.
  - apply (proj1 (getCollapsedInfo_unknown_value (imports := MoreSamples.no_catalogs)
                    Samples.metric Range 10 false)).
    reflexivity.
  - apply (proj2 (getCollapsedInfo_unknown_value (imports := Samples.imports)
                    (Query.with_resolution Samples.metric (val 7)) Range 10 false) 7);
      [reflexivity|discriminate|reflexivity].
Defined.

Lemma state_cell_after_edit_witness :
  world_after (handle (imports := Samples.imports) undefined (CommitStep (Event.mk "5m")))
              (mkWorld Samples.metric false)
  = mkWorld Samples.metric false
  /\ splitDurationValid
       (world_after (handle (imports := Samples.imports) undefined
                            (CommitSplitDuration (Event.mk "soon")))
                    (mkWorld Samples.logs true))
     = false.
Proof.
  split.
  - apply (proj1 (state_cell_after_edit (imports := Samples.imports) undefined
                    (CommitStep (Event.mk "5m")) (mkWorld Samples.metric false))).
    discriminate.
  - apply (proj2 (state_cell_after_edit (imports := Samples.imports) undefined
                    (CommitSplitDuration (Event.mk "soon")) (mkWorld Samples.logs true))
             (Event.mk "soon") eq_refl).
Defined.

Lemma committed_value_is_stored_witness :
  Query.maxLines (Query.with_maxLines Samples.logs (val 25)) = val 25.
Proof.
  apply (committed_value_is_stored (imports := Samples.imports) undefined
           (CommitLineLimit (Event.mk "25")) (mkWorld Samples.logs true)
           (Query.with_maxLines Samples.logs (val 25))).
  left. reflexivity.
Defined.

Lemma resolved_type_after_edit_witness :
  queryType (query (commit (imports := Samples.imports) undefined (CommitType Range)
                           (mkWorld MoreSamples.logs_with_refId true)))
  = Range
  /\ queryType (query (commit (imports := Samples.imports) undefined
                              (CommitLegend (Event.mk "{{job}}"))
                              (mkWorld MoreSamples.logs_with_refId true)))
     = Instant.
Proof.
  split.
  - apply (proj1 (resolved_type_after_edit (imports := Samples.imports) undefined
                    (CommitType Range) (mkWorld MoreSamples.logs_with_refId true) 10)
             Range eq_refl).
  - apply (proj2 (resolved_type_after_edit (imports := Samples.imports) undefined
                    (CommitLegend (Event.mk "{{job}}"))
                    (mkWorld MoreSamples.logs_with_refId true) 10)).
    discriminate.
Defined.

Lemma edits_of_different_fields_commute_witness :
  commit (imports := Samples.imports) undefined (CommitLineLimit (Event.mk "25"))
         (commit (imports := Samples.imports) undefined (CommitSplitDuration (Event.mk "2d"))
                 (mkWorld Samples.logs false))
  = commit (imports := Samples.imports) undefined (CommitSplitDuration (Event.mk "2d"))
           (commit (imports := Samples.imports) undefined (CommitLineLimit (Event.mk "25"))
                   (mkWorld Samples.logs false)).
Proof.
  apply (edits_of_different_fields_commute (imports := Samples.imports) undefined
           (CommitSplitDuration (Event.mk "2d")) (CommitLineLimit (Event.mk "25"))
           (mkWorld Samples.logs false)).
  discriminate.
Defined.

Lemma summary_blind_to_edit_witness :
  getCollapsedInfo (imports := Samples.imports)
                   (query (commit (imports := Samples.imports) undefined
                                  (CommitSplitDuration (Event.mk "2d"))
                                  (mkWorld Samples.logs true)))
                   Range 10 true
  = getCollapsedInfo (imports := Samples.imports) Samples.logs Range 10 true.
Proof.
  apply (summary_blind_to_edit (imports := Samples.imports) undefined
           (CommitSplitDuration (Event.mk "2d")) (mkWorld Samples.logs true) Range 10 true).
  left. reflexivity.
Defined.

Lemma step_edit_summary_witness :
  In "Step: 5m"
     (getCollapsedInfo (imports := Samples.imports)
                       (query (commit (imports := Samples.imports) undefined
                                      (CommitStep (Event.mk " 5m "))
                                      (mkWorld Samples.metric true)))
                       Range 10 false).
Proof.
  apply (proj2 (step_edit_summary (imports := Samples.imports) undefined
                  (Event.mk " 5m ") (mkWorld Samples.metric true) Range 10)).
  discriminate.
Defined.

Lemma resolution_edit_summary_witness :
  count_occ string_dec
            (getCollapsedInfo (imports := Samples.imports)
                              (query (commit (imports := Samples.imports) undefined
                                             (CommitResolution
                                                (SelectableValue.mk (val 5) (val "1/5")))
                                             (mkWorld Samples.metric true)))
                              Range 10 false)
            "Resolution: 1/5" = 2%nat.
Proof.
  apply (resolution_edit_summary (imports := Samples.imports) undefined
           (SelectableValue.mk (val 5) (val "1/5")) (mkWorld Samples.metric true)
           Range 10 false 5);
    [reflexivity|discriminate|reflexivity].
Defined.

Lemma resolution_selector_and_summary_witness :
  exists shown : Z,
    Rendered.fieldFor Resolution
      (Rendered.render (Stats := unit) (imports := Samples.imports) MoreSamples.splitting_on
                       (Query.with_resolution Samples.metric (val 0)) 10 null true)
    = Some (Rendered.mkField "Resolution"
              (Rendered.Select (RESOLUTION_OPTIONS (Imports := Samples.imports)) shown)
              Resolution)
    /\ shown = 1.
Proof.
  destruct (resolution_selector_and_summary (Stats := unit) (imports := Samples.imports)
              MoreSamples.splitting_on (Query.with_resolution Samples.metric (val 0))
              10 null true eq_refl)
    as [shown [Hfield [_ [_ [Hdefault _]]]]].
  exists shown. split; [exact Hfield|apply Hdefault; reflexivity].
Defined.

Lemma line_limit_input_and_summary_witness :
  exists placeholder defaultValue : string,
    Rendered.fieldFor LineLimit
      (Rendered.render (Stats := unit) (imports := Samples.imports) MoreSamples.splitting_on
                       Samples.logs 10 null true)
    = Some (Rendered.mkField "Line limit"
              (Rendered.AutoSizeInput (val placeholder) "number" (val defaultValue) undefined)
              LineLimit)
    /\ last (Rendered.collapsedInfo
               (Rendered.render (Stats := unit) (imports := Samples.imports)
                                MoreSamples.splitting_on Samples.logs 10 null true))
            EmptyString
       = ("Line limit: " ++ placeholder)%string.
Proof.
  destruct (line_limit_input_and_summary (Stats := unit) (imports := Samples.imports)
              MoreSamples.splitting_on Samples.logs 10 null true eq_refl)
    as [placeholder [defaultValue [Hfield [Hlast _]]]].
  exists placeholder, defaultValue. split; [exact Hfield|exact Hlast].
Defined.

Lemma split_duration_field_after_edit_witness :
  Rendered.fieldFor SplitDuration
    (Rendered.renderIn (Stats := unit) (imports := Samples.imports) MoreSamples.splitting_on
                       10 null
                       (commit (imports := Samples.imports) undefined
                               (CommitSplitDuration (Event.mk "soon"))
                               (mkWorld Samples.logs true)))
  = Some (Rendered.mkField "Split Duration"
            (Rendered.AutoSizeInput undefined "string" (val "1d") (val true))
            SplitDuration).
Proof.
  apply (split_duration_field_after_edit (Stats := unit) (imports := Samples.imports)
           MoreSamples.splitting_on undefined (Event.mk "soon") (mkWorld Samples.logs true)
           10 null);
    reflexivity.
Defined.
